(** * TP-Link sensor platform: metric derivation and entity enumeration

    A shallow embedding of [custom_components/custom-tplink/sensor.py]:
    the descriptor catalogs [ENERGY_SENSORS] and [LUX_SENSORS], the two
    derivation functions [async_luxmeter_from_device] and
    [async_emeter_from_device], the enumeration [async_setup_entry] and the
    entity class [SmartPlugSensor], followed by the properties that the
    specification states about them.

    Python values keep their shape: a [float] is a binary64 primitive
    float, [None] is the [None] of [option], an exception is the [Raise]
    of a small error monad, and attribute lookup by name ([getattr]) is a
    lookup that raises [AttributeError] on a name the object lacks. *)

From Stdlib Require Import ZArith List String Bool Lia.
From Stdlib Require Import Floats.
Import ListNotations.

Set Warnings "-inexact-float,-register-all".

Local Open Scope string_scope.
Local Open Scope Z_scope.

(* ================================================================== *)
(** * The Python primitives the module uses *)
(* ================================================================== *)

Module Py.

(** The exceptions that the builtins used here can raise. *)
Inductive exn : Type :=
| AttributeError (name : string)
| ValueError
| OverflowError.

(** A Python computation: it returns a value or raises. *)
Inductive result (A : Type) : Type :=
| Return (a : A)
| Raise (e : exn).

Arguments Return {A} a.
Arguments Raise {A} e.

Definition bind {A B : Type} (m : result A) (k : A -> result B) : result B :=
  match m with
  | Return a => k a
  | Raise e => Raise e
  end.

(** A number as [round] hands it back: [round(x, n)] is a float,
    [round(x, None)] is an int. *)
Inductive number : Type :=
| PyFloat (f : float)
| PyInt (z : Z).

(** Truth value of a [str | None]: [None] and the empty string are false. *)
Definition truthy (s : option string) : option string :=
  match s with
  | Some "" => None
  | Some a => Some a
  | None => None
  end.

(** ** [round] on a float

    CPython's [float.__round__]: with [ndigits] an int, the exact binary
    value of [x] is rounded half-to-even to [ndigits] decimal places and
    the decimal obtained is converted back to the nearest float; with
    [ndigits = None] the result is the nearest int, ties to even. *)

(** [p / q] rounded to the nearest integer, ties to even ([0 <= p], [0 < q]). *)
Definition div_half_even (p q : Z) : Z :=
  let (d, r) := Z.div_eucl p q in
  match 2 * r ?= q with
  | Lt => d
  | Gt => d + 1
  | Eq => if Z.even d then d else d + 1
  end.

(** [m * 2^e * 10^n] rounded to the nearest integer, ties to even. *)
Definition scaled_half_even (m : positive) (e n : Z) : Z :=
  div_half_even (Zpos m * 2 ^ Z.max e 0 * 10 ^ Z.max n 0)
                (2 ^ Z.max (- e) 0 * 10 ^ Z.max (- n) 0).

(** The float nearest to the decimal [(-1)^s * k * 10^(-n)]. *)
Definition decimal_to_float (s : bool) (k n : Z) : float :=
  match k with
  | Zpos pk =>
      if 0 <=? n
      then SF2Prim (SFdiv prec emax (S754_finite s pk 0)
                                    (S754_finite false (Z.to_pos (10 ^ n)) 0))
      else SF2Prim (binary_normalize prec emax
                      (cond_Zopp s (k * 10 ^ (- n))) 0 s)
  | _ => if s then neg_zero else zero
  end.

(** The value of [round(x, n)] for a finite [x]. *)
Definition double_round (x : float) (n : Z) : float :=
  match Prim2SF x with
  | S754_finite s m e => decimal_to_float s (scaled_half_even m e n) n
  | _ => x
  end.

Definition NDIGITS_MAX : Z := 323.
Definition NDIGITS_MIN : Z := -308.

(** [round(x, ndigits)] with [ndigits] an int, as a float.  Non-finite
    values and digit counts beyond the precision of a float return [x];
    digit counts below the least exponent return a signed zero. *)
Definition round_digits (x : float) (n : Z) : float :=
  if negb (is_finite x) then x
  else if NDIGITS_MAX <? n then x
  else if n <? NDIGITS_MIN then (0 * x)%float
  else double_round x n.

(** [round(x, ndigits)].  Rounding to a non-negative number of places
    never leaves the range of a float; to a negative number of places it
    can, and then raises [OverflowError].  Rounding to an int raises on
    NaN and on the infinities. *)
Definition round (x : float) (ndigits : option Z) : result number :=
  match ndigits with
  | Some n =>
      let r := round_digits x n in
      if (n <? 0) && is_finite x && is_infinity r
      then Raise OverflowError
      else Return (PyFloat r)
  | None =>
      match Prim2SF x with
      | S754_nan => Raise ValueError
      | S754_infinity _ => Raise OverflowError
      | S754_zero _ => Return (PyInt 0)
      | S754_finite s m e => Return (PyInt (cond_Zopp s (scaled_half_even m e 0)))
      end
  end.

End Py.

Import Py.

Notation "x <- m ;; k" := (Py.bind m (fun x => k))
  (at level 61, m at next level, right associativity).

(* ================================================================== *)
(** * Data model *)
(* ================================================================== *)

(** ** The device snapshot ([kasa.SmartDevice]) *)

(** The instantaneous metering reading, [device.emeter_realtime]: four
    readings, each a float or [None]. *)
Record EmeterStatus : Type := {
  power : option float;
  total : option float;
  voltage : option float;
  current : option float
}.

(** [getattr(status, attr)]: the reading of that name.  The reading is
    modelled by its four fields, so any other name is looked up as on an
    object that lacks it, and raises; the properties below use the lookup on
    the four fields and on names that the reading lacks. *)
Definition getattr (status : EmeterStatus) (attr : string) : result (option float) :=
  if (attr =? "power")%string then Return (power status)
  else if (attr =? "total")%string then Return (total status)
  else if (attr =? "voltage")%string then Return (voltage status)
  else if (attr =? "current")%string then Return (current status)
  else Raise (AttributeError attr).

(** The names [getattr] finds on a reading. *)
Definition emeter_fields : list string := ["power"; "total"; "voltage"; "current"].

(** The device handle: readings, capability flags and, for a strip, the
    child devices. *)
Inductive SmartDevice : Type := mkSmartDevice {
  alias : string;
  supported_modules : list string;
  emeter_realtime : EmeterStatus;
  emeter_today : option float;
  current_brightness : option float;
  is_bulb : bool;
  is_dimmable : bool;
  has_emeter : bool;
  is_strip : bool;
  children : list SmartDevice
}.

(** The update coordinator owns the top-level device. *)
Record TPLinkDataUpdateCoordinator : Type := {
  coordinator_device : SmartDevice
}.

(** ** The metric descriptor *)

Inductive SensorDeviceClass : Type :=
| POWER | ENERGY | VOLTAGE | CURRENT | ILLUMINANCE.

Inductive SensorStateClass : Type :=
| MEASUREMENT | TOTAL_INCREASING.

Record TPLinkSensorEntityDescription : Type := {
  key : string;
  native_unit_of_measurement : string;
  device_class : SensorDeviceClass;
  state_class : SensorStateClass;
  name : string;
  emeter_attr : option string;
  precision : option Z
}.

(** ** Names imported from outside this file

    The attribute keys of [.const], the unit and attribute constants of
    [homeassistant.const] and the helper [legacy_device_id] of the package
    are used by name only; nothing below depends on their values. *)
Class Imports : Type := {
  ATTR_VOLTAGE : string;
  ELECTRIC_CURRENT_AMPERE : string;
  ELECTRIC_POTENTIAL_VOLT : string;
  ENERGY_KILO_WATT_HOUR : string;
  LIGHT_LUX : string;
  POWER_WATT : string;
  ATTR_CURRENT_A : string;
  ATTR_CURRENT_POWER_W : string;
  ATTR_TODAY_ENERGY_KWH : string;
  ATTR_TOTAL_ENERGY_KWH : string;
  legacy_device_id : SmartDevice -> string
}.

(** ** The sensor entity *)

Record SmartPlugSensor : Type := {
  device : SmartDevice;
  coordinator : TPLinkDataUpdateCoordinator;
  entity_description : TPLinkSensorEntityDescription;
  _attr_unique_id : string
}.

(* ================================================================== *)
(** * Metric derivation *)
(* ================================================================== *)

Definition async_luxmeter_from_device
    (device : SmartDevice) (description : TPLinkSensorEntityDescription)
    : result (option number) :=
  match truthy (emeter_attr description) with
  | Some attr =>
      match current_brightness device with
      | None => Return None
      | Some valy =>
          r <- round valy (precision description) ;;
          Return (Some r)
      end
  | None => Return None
  end.

Definition async_emeter_from_device
    (device : SmartDevice) (description : TPLinkSensorEntityDescription)
    : result (option number) :=
  match truthy (emeter_attr description) with
  | Some attr =>
      val <- getattr (emeter_realtime device) attr ;;
      match val with
      | None => Return None
      | Some val =>
          r <- round val (precision description) ;;
          Return (Some r)
      end
  | None =>
      (* ATTR_TODAY_ENERGY_KWH *)
      match emeter_today device with
      | Some emeter_today =>
          r <- round emeter_today (precision description) ;;
          Return (Some r)
      | None =>
          (* today's consumption not available, when device was off all the day;
             bulbs do not report this information, so filter it out *)
          if is_bulb device then Return None else Return (Some (PyFloat 0%float))
      end
  end.

(* ================================================================== *)
(** * Descriptor catalogs, entities and setup *)
(* ================================================================== *)

(** A list comprehension [[f x for x in l if cond x]] whose condition is a
    Python computation: the first condition that raises ends it. *)
Fixpoint comprehension {A B : Type}
    (f : A -> B) (cond : A -> result bool) (l : list A) : result (list B) :=
  match l with
  | [] => Return []
  | x :: l' =>
      c <- cond x ;;
      rest <- comprehension f cond l' ;;
      Return (if c then f x :: rest else rest)
  end.

(** A [for] loop whose body updates the state [s]. *)
Fixpoint for_each {A S : Type}
    (l : list A) (body : A -> S -> result S) (s : S) : result S :=
  match l with
  | [] => Return s
  | x :: l' => s' <- body x s ;; for_each l' body s'
  end.

(** [l.extend(more)], as the list it leaves in [l]. *)
Definition extend {A : Type} (l more : list A) : list A := (l ++ more)%list.

(** [value is not None] *)
Definition is_not_None {A : Type} (value : option A) : bool :=
  match value with
  | Some _ => true
  | None => false
  end.

Section Sensor.

Context `{Imports}.

Definition ENERGY_SENSORS : list TPLinkSensorEntityDescription := [
  {| key := ATTR_CURRENT_POWER_W;
     native_unit_of_measurement := POWER_WATT;
     device_class := POWER;
     state_class := MEASUREMENT;
     name := "Current Consumption";
     emeter_attr := Some "power";
     precision := Some 1 |};
  {| key := ATTR_TOTAL_ENERGY_KWH;
     native_unit_of_measurement := ENERGY_KILO_WATT_HOUR;
     device_class := ENERGY;
     state_class := TOTAL_INCREASING;
     name := "Total Consumption";
     emeter_attr := Some "total";
     precision := Some 3 |};
  {| key := ATTR_TODAY_ENERGY_KWH;
     native_unit_of_measurement := ENERGY_KILO_WATT_HOUR;
     device_class := ENERGY;
     state_class := TOTAL_INCREASING;
     name := "Today's Consumption";
     emeter_attr := None;
     precision := Some 3 |};
  {| key := ATTR_VOLTAGE;
     native_unit_of_measurement := ELECTRIC_POTENTIAL_VOLT;
     device_class := VOLTAGE;
     state_class := MEASUREMENT;
     name := "Voltage";
     emeter_attr := Some "voltage";
     precision := Some 1 |};
  {| key := ATTR_CURRENT_A;
     native_unit_of_measurement := ELECTRIC_CURRENT_AMPERE;
     device_class := CURRENT;
     state_class := MEASUREMENT;
     name := "Current";
     emeter_attr := Some "current";
     precision := Some 2 |}
].

Definition LUX_SENSORS : list TPLinkSensorEntityDescription := [
  {| key := ATTR_CURRENT_POWER_W;
     native_unit_of_measurement := LIGHT_LUX;
     device_class := ILLUMINANCE;
     state_class := MEASUREMENT;
     name := "Light Lux";
     emeter_attr := Some "power";
     precision := Some 1 |}
].

(** [SmartPlugSensor.__init__]; the base class keeps [device] and
    [coordinator]. *)
Definition SmartPlugSensor_init
    (device : SmartDevice) (coordinator : TPLinkDataUpdateCoordinator)
    (description : TPLinkSensorEntityDescription) : SmartPlugSensor :=
  {| device := device;
     coordinator := coordinator;
     entity_description := description;
     _attr_unique_id := legacy_device_id device ++ "_" ++ key description |}.

(** [SmartPlugSensor.name] *)
Definition SmartPlugSensor_name (self : SmartPlugSensor) : string :=
  alias (device self) ++ " " ++ name (entity_description self).

(** [SmartPlugSensor.native_value] *)
Definition native_value (self : SmartPlugSensor) : result (option number) :=
  async_emeter_from_device (device self) (entity_description self).

(** [async_setup_entry], from the coordinator found in [hass.data] to the
    list handed to [async_add_entities].  The loop over
    [parent.supported_modules] only logs and is left out. *)
Definition async_setup_entry (coordinator : TPLinkDataUpdateCoordinator)
    : result (list SmartPlugSensor) :=
  let entities : list SmartPlugSensor := [] in
  let parent := coordinator_device coordinator in
  entities <-
    (if is_dimmable parent then
       let _async_sensors_for_device (device : SmartDevice) :=
         comprehension
           (fun description => SmartPlugSensor_init device coordinator description)
           (fun description =>
              value <- async_luxmeter_from_device device description ;;
              Return (is_not_None value))
           LUX_SENSORS in
       sensors <- _async_sensors_for_device parent ;;
       Return (extend entities sensors)
     else Return entities) ;;
  entities <-
    (if has_emeter parent then
       let _async_sensors_for_device (device : SmartDevice) :=
         comprehension
           (fun description => SmartPlugSensor_init device coordinator description)
           (fun description =>
              value <- async_emeter_from_device device description ;;
              Return (is_not_None value))
           ENERGY_SENSORS in
       if is_strip parent then
         (* Historically we only add the children if the device is a strip *)
         for_each (children parent)
           (fun child entities =>
              sensors <- _async_sensors_for_device child ;;
              Return (extend entities sensors))
           entities
       else
         sensors <- _async_sensors_for_device parent ;;
         Return (extend entities sensors)
     else Return entities) ;;
  Return entities.

End Sensor.

(* ================================================================== *)
(** * Auxiliary definitions for the statements *)
(* ================================================================== *)

(** The number of devices in a device tree. *)
Fixpoint tree_size (d : SmartDevice) : nat :=
  match d with
  | mkSmartDevice _ _ _ _ _ _ _ _ _ cs =>
      S ((fix sum (l : list SmartDevice) : nat :=
            match l with
            | [] => O
            | c :: l' => (tree_size c + sum l')%nat
            end) cs)
  end.

(** The descriptor rounds to a non-negative number of decimal places. *)
Definition rounds_to_places (d : TPLinkSensorEntityDescription) : bool :=
  match precision d with
  | Some n => 0 <=? n
  | None => false
  end.

(** The source-field of the descriptor, when it has one, is a field of the
    metering reading. *)
Definition names_emeter_field (d : TPLinkSensorEntityDescription) : bool :=
  match truthy (emeter_attr d) with
  | Some attr => existsb (String.eqb attr) emeter_fields
  | None => true
  end.

(** The derivation yields a value: it returns, and not [None]. *)
Definition yields_value (r : result (option number)) : bool :=
  match r with
  | Return (Some _) => true
  | _ => false
  end.

(** The entities of one device over one catalog, as a filter and a map. *)
Definition sensors_of
    (init : SmartDevice -> TPLinkSensorEntityDescription -> SmartPlugSensor)
    (derive : SmartDevice -> TPLinkSensorEntityDescription -> result (option number))
    (catalog : list TPLinkSensorEntityDescription) (d : SmartDevice)
    : list SmartPlugSensor :=
  map (init d) (filter (fun description => yields_value (derive d description)) catalog).

(** The entities of a device over the lux and over the energy catalog. *)
Definition lux_sensors `{Imports}
    (c : TPLinkDataUpdateCoordinator) (d : SmartDevice) : list SmartPlugSensor :=
  sensors_of (fun d => SmartPlugSensor_init d c) async_luxmeter_from_device LUX_SENSORS d.

Definition energy_sensors `{Imports}
    (c : TPLinkDataUpdateCoordinator) (d : SmartDevice) : list SmartPlugSensor :=
  sensors_of (fun d => SmartPlugSensor_init d c) async_emeter_from_device ENERGY_SENSORS d.

(** An entity over the lux catalog, and one over the energy catalog. *)
Definition is_lux_entity `{Imports} (e : SmartPlugSensor) : Prop :=
  In (entity_description e) LUX_SENSORS.

Definition is_energy_entity `{Imports} (e : SmartPlugSensor) : Prop :=
  In (entity_description e) ENERGY_SENSORS.

(** ** Concrete inputs *)

(** The values the imported names have upstream. *)
Definition upstream : Imports := {|
  ATTR_VOLTAGE := "voltage";
  ELECTRIC_CURRENT_AMPERE := "A";
  ELECTRIC_POTENTIAL_VOLT := "V";
  ENERGY_KILO_WATT_HOUR := "kWh";
  LIGHT_LUX := "lx";
  POWER_WATT := "W";
  ATTR_CURRENT_A := "current_a";
  ATTR_CURRENT_POWER_W := "current_power_w";
  ATTR_TODAY_ENERGY_KWH := "today_energy_kwh";
  ATTR_TOTAL_ENERGY_KWH := "total_energy_kwh";
  legacy_device_id := alias
|}.

Definition no_reading : EmeterStatus :=
  {| power := None; total := None; voltage := None; current := None |}.

(** A plug that meters: 12.3456 A at 230.04 V, nothing accumulated today. *)
Definition plug : SmartDevice :=
  {| alias := "plug";
     supported_modules := [];
     emeter_realtime :=
       {| power := Some 2839.98%float; total := Some 1.2345%float;
          voltage := Some 230.04%float; current := Some 12.3456%float |};
     emeter_today := None;
     current_brightness := None;
     is_bulb := false;
     is_dimmable := false;
     has_emeter := true;
     is_strip := false;
     children := [] |}.

(** A bulb that meters its power only and has no reading for today. *)
Definition bulb : SmartDevice :=
  {| alias := "bulb";
     supported_modules := [];
     emeter_realtime :=
       {| power := Some 7.25%float; total := None; voltage := None; current := None |};
     emeter_today := None;
     current_brightness := Some 80%float;
     is_bulb := true;
     is_dimmable := true;
     has_emeter := true;
     is_strip := false;
     children := [] |}.

(** A dimmer switch without a meter: brightness 50. *)
Definition dimmer : SmartDevice :=
  {| alias := "dimmer";
     supported_modules := ["ambient"; "motion"];
     emeter_realtime := no_reading;
     emeter_today := None;
     current_brightness := Some 50.04%float;
     is_bulb := false;
     is_dimmable := true;
     has_emeter := false;
     is_strip := false;
     children := [] |}.

(** A dimmer switch that also meters. *)
Definition metering_dimmer : SmartDevice :=
  {| alias := "dimmer";
     supported_modules := ["ambient"; "motion"];
     emeter_realtime :=
       {| power := Some 3.21%float; total := None; voltage := None; current := None |};
     emeter_today := Some 0.0125%float;
     current_brightness := Some 50.04%float;
     is_bulb := false;
     is_dimmable := true;
     has_emeter := true;
     is_strip := false;
     children := [] |}.

Definition outlet (n : string) (watts : float) : SmartDevice :=
  {| alias := n;
     supported_modules := [];
     emeter_realtime :=
       {| power := Some watts; total := None; voltage := None; current := None |};
     emeter_today := Some 0.5%float;
     current_brightness := None;
     is_bulb := false;
     is_dimmable := false;
     has_emeter := true;
     is_strip := false;
     children := [] |}.

(** A strip of two outlets; the strip itself reports a total. *)
Definition strip : SmartDevice :=
  {| alias := "strip";
     supported_modules := [];
     emeter_realtime :=
       {| power := Some 30%float; total := Some 9%float; voltage := None; current := None |};
     emeter_today := Some 1%float;
     current_brightness := None;
     is_bulb := false;
     is_dimmable := false;
     has_emeter := true;
     is_strip := true;
     children := [outlet "outlet 0" 10%float; outlet "outlet 1" 20%float] |}.

(** A descriptor outside the catalog: it names a field the reading lacks. *)
Definition frequency_descriptor : TPLinkSensorEntityDescription :=
  {| key := "frequency";
     native_unit_of_measurement := "Hz";
     device_class := POWER;
     state_class := MEASUREMENT;
     name := "Frequency";
     emeter_attr := Some "frequency";
     precision := Some 2 |}.

(** A descriptor without a source-field, as the today-energy descriptor. *)
Definition today_descriptor : TPLinkSensorEntityDescription :=
  {| key := "today_energy_kwh";
     native_unit_of_measurement := "kWh";
     device_class := ENERGY;
     state_class := TOTAL_INCREASING;
     name := "Today's Consumption";
     emeter_attr := None;
     precision := Some 3 |}.

(** The descriptor of the current, which rounds to two places. *)
Definition current_descriptor : TPLinkSensorEntityDescription :=
  {| key := "current_a";
     native_unit_of_measurement := "A";
     device_class := CURRENT;
     state_class := MEASUREMENT;
     name := "Current";
     emeter_attr := Some "current";
     precision := Some 2 |}.

(** The lux descriptor, with the upstream values of its key and unit. *)
Definition lux_descriptor : TPLinkSensorEntityDescription :=
  {| key := "current_power_w";
     native_unit_of_measurement := "lx";
     device_class := ILLUMINANCE;
     state_class := MEASUREMENT;
     name := "Light Lux";
     emeter_attr := Some "power";
     precision := Some 1 |}.

(** The device with the brightness reading in the place of every field
    of its metering reading: on it the energy path reads the brightness. *)
Definition reading_brightness (dev : SmartDevice) : SmartDevice :=
  {| alias := alias dev;
     supported_modules := supported_modules dev;
     emeter_realtime :=
       {| power := current_brightness dev; total := current_brightness dev;
          voltage := current_brightness dev; current := current_brightness dev |};
     emeter_today := emeter_today dev;
     current_brightness := current_brightness dev;
     is_bulb := is_bulb dev;
     is_dimmable := is_dimmable dev;
     has_emeter := has_emeter dev;
     is_strip := is_strip dev;
     children := children dev |}.

(** A power descriptor made without a precision: [precision] keeps its
    default, [None]. *)
Definition unrounded_descriptor : TPLinkSensorEntityDescription :=
  {| key := "current_power_w";
     native_unit_of_measurement := "W";
     device_class := POWER;
     state_class := MEASUREMENT;
     name := "Current Consumption";
     emeter_attr := Some "power";
     precision := None |}.

(** A power descriptor that rounds to a negative number of places. *)
Definition coarse_descriptor : TPLinkSensorEntityDescription :=
  {| key := "current_power_w";
     native_unit_of_measurement := "W";
     device_class := POWER;
     state_class := MEASUREMENT;
     name := "Current Consumption";
     emeter_attr := Some "power";
     precision := Some (-308) |}.

(** A plug whose meter reports the given power and nothing else. *)
Definition plug_reporting (watts : float) : SmartDevice :=
  {| alias := "plug";
     supported_modules := [];
     emeter_realtime :=
       {| power := Some watts; total := None; voltage := None; current := None |};
     emeter_today := None;
     current_brightness := None;
     is_bulb := false;
     is_dimmable := false;
     has_emeter := true;
     is_strip := false;
     children := [] |}.

Definition coordinator_of (d : SmartDevice) : TPLinkDataUpdateCoordinator :=
  {| coordinator_device := d |}.

(* ================================================================== *)
(** * The debug log *)
(* ================================================================== *)

(** The derivation functions and the enumeration above leave out the calls
    of [_LOGGER.debug]; here they are again with the calls kept, so that the
    two can be compared. *)

(** One call [_LOGGER.debug(msg, *args)]: the format and its arguments. *)
Record LogRecord : Type := {
  msg : string;
  args : list string
}.

Definition debug (msg : string) (args : list string) : LogRecord :=
  {| msg := msg; args := args |}.

(** A computation that logs: the records it has written, in order, and its
    outcome.  What was logged before an exception stays logged. *)
Definition logged (A : Type) : Type := (list LogRecord * result A)%type.

Definition bind_logged {A B : Type} (m : logged A) (k : A -> logged B) : logged B :=
  match m with
  | (l, Return a) => let (l', r) := k a in ((l ++ l')%list, r)
  | (l, Raise e) => (l, Raise e)
  end.

Notation "x <~ m ;; k" := (bind_logged m (fun x => k))
  (at level 61, m at next level, right associativity).

(** A computation that does not log. *)
Definition quiet {A : Type} (r : result A) : logged A := ([], r).

(** A call of [_LOGGER.debug]. *)
Definition log (r : LogRecord) : logged unit := ([r], Return tt).

(** [async_luxmeter_from_device] with its log. *)
Definition async_luxmeter_from_device_logged
    (device : SmartDevice) (description : TPLinkSensorEntityDescription)
    : logged (option number) :=
  match truthy (emeter_attr description) with
  | Some attr =>
      match current_brightness device with
      | None =>
          _ <~ log (debug "Current brightness returned None." []) ;;
          quiet (Return None)
      | Some valy =>
          _ <~ log (debug "Yay!" []) ;;
          r <~ quiet (round valy (precision description)) ;;
          quiet (Return (Some r))
      end
  | None => quiet (Return None)
  end.

(** The list comprehension with a condition that logs. *)
Fixpoint comprehension_logged {A B : Type}
    (f : A -> B) (cond : A -> logged bool) (l : list A) : logged (list B) :=
  match l with
  | [] => quiet (Return [])
  | x :: l' =>
      c <~ cond x ;;
      rest <~ comprehension_logged f cond l' ;;
      quiet (Return (if c then f x :: rest else rest))
  end.

(** The [for] loop with a body that logs. *)
Fixpoint for_each_logged {A S : Type}
    (l : list A) (body : A -> S -> logged S) (s : S) : logged S :=
  match l with
  | [] => quiet (Return s)
  | x :: l' => s' <~ body x s ;; for_each_logged l' body s'
  end.

(** [async_setup_entry] with its log: a record for each supported module,
    one for a dimmer, and what the illuminance derivation logs. *)
Definition async_setup_entry_logged `{Imports} (coordinator : TPLinkDataUpdateCoordinator)
    : logged (list SmartPlugSensor) :=
  let entities : list SmartPlugSensor := [] in
  let parent := coordinator_device coordinator in
  let supported_modules := supported_modules parent in
  _ <~ for_each_logged supported_modules
         (fun m _ => log (debug "Found module: %s" [m])) tt ;;
  entities <~
    (if is_dimmable parent then
       _ <~ log (debug "Found a dimmer switch." []) ;;
       let _async_sensors_for_device (device : SmartDevice) :=
         comprehension_logged
           (fun description => SmartPlugSensor_init device coordinator description)
           (fun description =>
              value <~ async_luxmeter_from_device_logged device description ;;
              quiet (Return (is_not_None value)))
           LUX_SENSORS in
       sensors <~ _async_sensors_for_device parent ;;
       quiet (Return (extend entities sensors))
     else quiet (Return entities)) ;;
  entities <~
    (if has_emeter parent then
       let _async_sensors_for_device (device : SmartDevice) :=
         comprehension_logged
           (fun description => SmartPlugSensor_init device coordinator description)
           (fun description =>
              value <~ quiet (async_emeter_from_device device description) ;;
              quiet (Return (is_not_None value)))
           ENERGY_SENSORS in
       if is_strip parent then
         for_each_logged (children parent)
           (fun child entities =>
              sensors <~ _async_sensors_for_device child ;;
              quiet (Return (extend entities sensors)))
           entities
       else
         sensors <~ _async_sensors_for_device parent ;;
         quiet (Return (extend entities sensors))
     else quiet (Return entities)) ;;
  quiet (Return entities).

(** ** Further definitions for the statements *)

(** The device is one that the enumeration over [parent] makes energy
    entities for: a child of a strip, or the device itself. *)
Definition enumerated (parent dev : SmartDevice) : Prop :=
  if is_strip parent then In dev (children parent) else dev = parent.

(** The keys of the energy descriptors, in catalog order. *)
Definition energy_keys `{Imports} : list string :=
  map key ENERGY_SENSORS.

(** A dimmer that also meters, without a brightness reading at present. *)
Definition dark_dimmer : SmartDevice :=
  {| alias := "dimmer";
     supported_modules := ["ambient"; "motion"];
     emeter_realtime :=
       {| power := Some 3.21%float; total := None; voltage := None; current := None |};
     emeter_today := None;
     current_brightness := None;
     is_bulb := false;
     is_dimmable := true;
     has_emeter := true;
     is_strip := false;
     children := [] |}.

(* ================================================================== *)
(** * Rounding *)
(* ================================================================== *)

(** [round] agrees with CPython on the usual test values: the tie 0.125 goes
    to the even neighbour, 2.675 (stored just below the tie) goes down. *)
Example round_12_3456 : Py.round 12.3456%float (Some 2) = Return (PyFloat 12.35%float).
Proof. vm_compute. reflexivity. Qed.

Example round_2_675 : Py.round 2.675%float (Some 2) = Return (PyFloat 2.67%float).
Proof. vm_compute. reflexivity. Qed.

Example round_tie_even : Py.round 0.125%float (Some 2) = Return (PyFloat 0.12%float).
Proof. vm_compute. reflexivity. Qed.

Example round_negative_places :
  Py.round 1234.5678%float (Some (-2)) = Return (PyFloat 1200%float).
Proof. vm_compute. reflexivity. Qed.

Example round_to_int : Py.round (-3.5)%float None = Return (PyInt (-4)).
Proof. vm_compute. reflexivity. Qed.

Example round_overflow : Py.round 1.7e308%float (Some (-308)) = Raise OverflowError.
Proof. vm_compute. reflexivity. Qed.

Example round_nan_to_int : Py.round nan None = Raise ValueError.
Proof. vm_compute. reflexivity. Qed.

(** Rounding to a non-negative number of places always returns a float. *)
Lemma round_places (x : float) (n : Z) :
  0 <= n -> round x (Some n) = Return (PyFloat (round_digits x n)).
Proof.
  intros Hn. unfold round.
  replace (n <? 0) with false by (symmetry; apply Z.ltb_ge; exact Hn).
  reflexivity.
Qed.

Lemma rounds_to_places_spec (d : TPLinkSensorEntityDescription) :
  rounds_to_places d = true <-> exists n, precision d = Some n /\ 0 <= n.
Proof.
  unfold rounds_to_places. split.
  - destruct (precision d) as [n|]; [|discriminate].
    intros Hn. exists n. split; [reflexivity|]. apply Z.leb_le. exact Hn.
  - intros [n [-> Hn]]. apply Z.leb_le. exact Hn.
Qed.

(* ================================================================== *)
(** * The derivation functions, case by case *)
(* ================================================================== *)

Lemma truthy_some (s : option string) (attr : string) :
  truthy s = Some attr -> s = Some attr /\ attr <> "".
Proof.
  destruct s as [[|c s']|]; simpl; try discriminate.
  intros [= <-]. split; [reflexivity|discriminate].
Qed.

Lemma getattr_known (status : EmeterStatus) (attr : string) :
  In attr emeter_fields -> exists val, getattr status attr = Return val.
Proof.
  intros Hin. simpl in Hin.
  destruct Hin as [<-|[<-|[<-|[<-|[]]]]]; eexists; reflexivity.
Qed.

(** The illuminance path with a source-field and [n >= 0] places. *)
Lemma luxmeter_places (dev : SmartDevice) (d : TPLinkSensorEntityDescription)
    (attr : string) (n : Z) :
  truthy (emeter_attr d) = Some attr -> precision d = Some n -> 0 <= n ->
  async_luxmeter_from_device dev d =
  Return (option_map (fun v => PyFloat (round_digits v n)) (current_brightness dev)).
Proof.
  intros Hattr Hprec Hn. unfold async_luxmeter_from_device.
  rewrite Hattr, Hprec.
  destruct (current_brightness dev) as [v|]; [|reflexivity].
  rewrite round_places by exact Hn. reflexivity.
Qed.

(** The energy path on a descriptor whose source-field the reading has. *)
Lemma emeter_field_places (dev : SmartDevice) (d : TPLinkSensorEntityDescription)
    (attr : string) (val : option float) (n : Z) :
  truthy (emeter_attr d) = Some attr ->
  getattr (emeter_realtime dev) attr = Return val ->
  precision d = Some n -> 0 <= n ->
  async_emeter_from_device dev d =
  Return (option_map (fun v => PyFloat (round_digits v n)) val).
Proof.
  intros Hattr Hget Hprec Hn. unfold async_emeter_from_device.
  rewrite Hattr, Hget, Hprec. cbn [bind].
  destruct val as [v|]; [|reflexivity].
  rewrite round_places by exact Hn. reflexivity.
Qed.

(** The energy path on a descriptor without a source-field. *)
Lemma emeter_today_places (dev : SmartDevice) (d : TPLinkSensorEntityDescription)
    (n : Z) :
  truthy (emeter_attr d) = None -> precision d = Some n -> 0 <= n ->
  async_emeter_from_device dev d =
  match emeter_today dev with
  | Some v => Return (Some (PyFloat (round_digits v n)))
  | None => if is_bulb dev then Return None else Return (Some (PyFloat 0%float))
  end.
Proof.
  intros Hattr Hprec Hn. unfold async_emeter_from_device.
  rewrite Hattr, Hprec.
  destruct (emeter_today dev) as [v|]; [|reflexivity].
  rewrite round_places by exact Hn. reflexivity.
Qed.

(** An empty source-field counts as none: the energy path takes the
    today-energy branch. *)
Lemma emeter_empty_source_field (dev : SmartDevice) (d : TPLinkSensorEntityDescription)
    (n : Z) :
  emeter_attr d = Some "" -> precision d = Some n -> 0 <= n ->
  async_emeter_from_device dev d =
  match emeter_today dev with
  | Some v => Return (Some (PyFloat (round_digits v n)))
  | None => if is_bulb dev then Return None else Return (Some (PyFloat 0%float))
  end.
Proof.
  intros Hattr. apply emeter_today_places. rewrite Hattr. reflexivity.
Qed.

(** Neither path raises on a descriptor that rounds to places and names no
    field the reading lacks. *)
Lemma luxmeter_returns (dev : SmartDevice) (d : TPLinkSensorEntityDescription) :
  rounds_to_places d = true ->
  exists v, async_luxmeter_from_device dev d = Return v.
Proof.
  intros Hp. apply rounds_to_places_spec in Hp as [n [Hprec Hn]].
  destruct (truthy (emeter_attr d)) as [attr|] eqn:Hattr.
  - eexists. eapply luxmeter_places; eassumption.
  - exists None. unfold async_luxmeter_from_device. rewrite Hattr. reflexivity.
Qed.

Lemma emeter_returns (dev : SmartDevice) (d : TPLinkSensorEntityDescription) :
  rounds_to_places d = true -> names_emeter_field d = true ->
  exists v, async_emeter_from_device dev d = Return v.
Proof.
  intros Hp Hf. apply rounds_to_places_spec in Hp as [n [Hprec Hn]].
  unfold names_emeter_field in Hf.
  destruct (truthy (emeter_attr d)) as [attr|] eqn:Hattr.
  - apply existsb_exists in Hf as [f [Hin Heq]].
    apply String.eqb_eq in Heq. subst f.
    destruct (getattr_known (emeter_realtime dev) attr Hin) as [val Hget].
    eexists. eapply emeter_field_places; eassumption.
  - rewrite (emeter_today_places dev d n Hattr Hprec Hn).
    destruct (emeter_today dev); [|destruct (is_bulb dev)]; eexists; reflexivity.
Qed.

(* ================================================================== *)
(** * The enumeration as a filter over the catalogs *)
(* ================================================================== *)

Lemma comprehension_filter {A B : Type}
    (f : A -> B) (derive : A -> result (option number)) (l : list A) :
  (forall x, In x l -> exists v, derive x = Return v) ->
  comprehension f (fun x => value <- derive x ;; Return (is_not_None value)) l =
  Return (map f (filter (fun x => yields_value (derive x)) l)).
Proof.
  induction l as [|x l IH]; intros Hret; [reflexivity|].
  cbn [comprehension filter].
  destruct (Hret x (or_introl eq_refl)) as [v Hv].
  rewrite IH by (intros y Hy; apply Hret; right; exact Hy).
  rewrite Hv. destruct v; reflexivity.
Qed.

Lemma for_each_extend {A B : Type}
    (body : A -> result (list B)) (pure : A -> list B) (l : list A) :
  (forall x, In x l -> body x = Return (pure x)) ->
  forall acc,
    for_each l (fun x acc => more <- body x ;; Return (extend acc more)) acc =
    Return (acc ++ flat_map pure l)%list.
Proof.
  induction l as [|x l IH]; intros Hbody acc; cbn [for_each flat_map].
  - rewrite app_nil_r. reflexivity.
  - rewrite (Hbody x (or_introl eq_refl)). cbn [bind]. unfold extend at 1.
    rewrite IH by (intros y Hy; apply Hbody; right; exact Hy).
    rewrite app_assoc. reflexivity.
Qed.

(** A device is smaller than the tree it is a child in. *)
Lemma child_smaller (parent child : SmartDevice) :
  In child (children parent) -> (tree_size child < tree_size parent)%nat.
Proof.
  destruct parent as [a m e t b ib idm he st cs]. cbn [children tree_size].
  induction cs as [|c cs IH]; intros Hin; [destruct Hin|].
  destruct Hin as [->|Hin].
  - lia.
  - specialize (IH Hin). lia.
Qed.

Lemma child_not_parent (parent child : SmartDevice) :
  In child (children parent) -> child <> parent.
Proof.
  intros Hin ->. apply child_smaller in Hin. lia.
Qed.

(** Case analysis on the membership [Hin] of a descriptor in a catalog:
    one goal for each descriptor of the catalog. *)
Ltac each_descriptor Hin :=
  cbn [ENERGY_SENSORS LUX_SENSORS In] in Hin;
  repeat (destruct Hin as [<-|Hin]); [..|destruct Hin].

Section Enumeration.

Context `{Imports}.

(** Every descriptor of the two catalogs rounds to places and names a field
    of the reading. *)
Lemma energy_catalog_regular (d : TPLinkSensorEntityDescription) :
  In d ENERGY_SENSORS -> rounds_to_places d = true /\ names_emeter_field d = true.
Proof.
  intros Hin. each_descriptor Hin; split; reflexivity.
Qed.

Lemma lux_catalog_regular (d : TPLinkSensorEntityDescription) :
  In d LUX_SENSORS -> rounds_to_places d = true /\ names_emeter_field d = true.
Proof.
  intros Hin. each_descriptor Hin. split; reflexivity.
Qed.

(** The two catalogs share no descriptor: the lux descriptor is the only
    one of device class [ILLUMINANCE]. *)
Lemma catalogs_disjoint (d : TPLinkSensorEntityDescription) :
  In d LUX_SENSORS -> ~ In d ENERGY_SENSORS.
Proof.
  intros Hlux Hen. each_descriptor Hlux.
  cbn [ENERGY_SENSORS In] in Hen.
  repeat (destruct Hen as [Heq|Hen]; [apply (f_equal device_class) in Heq; discriminate|]).
  exact Hen.
Qed.

(** [async_setup_entry] never raises, and its list is the lux entities of
    the parent followed by the energy entities of the children (strip) or
    of the parent (otherwise). *)
Lemma setup_entities (c : TPLinkDataUpdateCoordinator) :
  async_setup_entry c =
  Return ((if is_dimmable (coordinator_device c)
           then lux_sensors c (coordinator_device c) else []) ++
          (if has_emeter (coordinator_device c)
           then if is_strip (coordinator_device c)
                then flat_map (energy_sensors c) (children (coordinator_device c))
                else energy_sensors c (coordinator_device c)
           else []))%list.
Proof.
  assert (Hlux : forall d,
    comprehension (fun description => SmartPlugSensor_init d c description)
      (fun description =>
         value <- async_luxmeter_from_device d description ;;
         Return (is_not_None value)) LUX_SENSORS = Return (lux_sensors c d)).
  { intros d. apply comprehension_filter.
    intros x Hx. apply luxmeter_returns. apply (lux_catalog_regular x Hx). }
  assert (Hen : forall d,
    comprehension (fun description => SmartPlugSensor_init d c description)
      (fun description =>
         value <- async_emeter_from_device d description ;;
         Return (is_not_None value)) ENERGY_SENSORS = Return (energy_sensors c d)).
  { intros d. apply comprehension_filter.
    intros x Hx. apply emeter_returns; apply (energy_catalog_regular x Hx). }
  assert (Hfor : forall l acc,
    for_each l
      (fun child entities =>
         sensors <-
           comprehension (fun description => SmartPlugSensor_init child c description)
             (fun description =>
                value <- async_emeter_from_device child description ;;
                Return (is_not_None value)) ENERGY_SENSORS ;;
         Return (extend entities sensors)) acc =
    Return (acc ++ flat_map (energy_sensors c) l)%list).
  { intros l acc.
    apply (for_each_extend
             (fun child =>
                comprehension (fun description => SmartPlugSensor_init child c description)
                  (fun description =>
                     value <- async_emeter_from_device child description ;;
                     Return (is_not_None value)) ENERGY_SENSORS)
             (energy_sensors c)).
    intros x _. apply Hen. }
  unfold async_setup_entry. cbv zeta.
  set (parent := coordinator_device c).
  destruct (is_dimmable parent); destruct (has_emeter parent);
    try destruct (is_strip parent);
    rewrite ?Hlux, ?Hen; cbn [bind extend app];
    rewrite ?Hfor, ?Hen; cbn [bind extend app];
    rewrite ?app_nil_r; reflexivity.
Qed.

(** Membership in the entities of one device. *)
Lemma in_sensors_of init derive catalog (d : SmartDevice) (e : SmartPlugSensor) :
  In e (sensors_of init derive catalog d) <->
  exists description,
    e = init d description /\ In description catalog /\
    yields_value (derive d description) = true.
Proof.
  unfold sensors_of. rewrite in_map_iff. split.
  - intros [x [Heq Hin]]. apply filter_In in Hin as [Hin Hy].
    exists x. auto.
  - intros [x [Heq [Hin Hy]]]. exists x. split; [auto|].
    apply filter_In. auto.
Qed.

Lemma yields_value_spec (r : result (option number)) :
  yields_value r = true <-> exists v, r = Return (Some v).
Proof.
  split.
  - destruct r as [[v|]|]; try discriminate. intros _. exists v. reflexivity.
  - intros [v ->]. reflexivity.
Qed.

End Enumeration.

(* ================================================================== *)
(** * Properties of the derivation functions *)
(* ================================================================== *)

(** C1. On the today-energy descriptor, the descriptor of [ENERGY_SENSORS]
    without a source-field (its precision is 3, so that [round] gives
    [round_digits _ 3]), the energy derivation returns the cumulative-today
    reading rounded to three places when the reading is present; when it is
    absent it returns [None] for a bulb and exactly [0.0] for any other
    device. *)
Theorem today_energy_value `{Imports}
    (dev : SmartDevice) (d : TPLinkSensorEntityDescription) :
  In d ENERGY_SENSORS -> emeter_attr d = None ->
  key d = ATTR_TODAY_ENERGY_KWH /\
  (forall v, round v (precision d) = Return (PyFloat (round_digits v 3))) /\
  async_emeter_from_device dev d =
  match emeter_today dev with
  | Some today => Return (Some (PyFloat (round_digits today 3)))
  | None => if is_bulb dev then Return None else Return (Some (PyFloat 0%float))
  end.
Proof.
  intros Hin Hattr. each_descriptor Hin; try discriminate Hattr.
  split; [reflexivity|]. split.
  - intros v. apply round_places. lia.
  - apply emeter_today_places; [reflexivity|reflexivity|lia].
Qed.

(** The three cases of C1: a reading of 0.0125 kWh, a bulb without a
    reading, a plug without a reading. *)
Lemma today_energy_value_witness :
  async_emeter_from_device metering_dimmer today_descriptor =
    Return (Some (PyFloat 0.013%float)) /\
  async_emeter_from_device bulb today_descriptor = Return None /\
  async_emeter_from_device plug today_descriptor = Return (Some (PyFloat 0%float)).
Proof.
  assert (Hin : In today_descriptor (@ENERGY_SENSORS upstream)).
  { right. right. left. reflexivity. }
  split; [|split].
  - rewrite (proj2 (proj2 (@today_energy_value upstream metering_dimmer _ Hin eq_refl))).
    vm_compute. reflexivity.
  - exact (proj2 (proj2 (@today_energy_value upstream bulb _ Hin eq_refl))).
  - exact (proj2 (proj2 (@today_energy_value upstream plug _ Hin eq_refl))).
Defined.

(** C3, as stated, fails.  Were the illuminance derivation the energy
    derivation reading the brightness in the place of the metering field,
    the two would agree on the dimmer once its metering reading holds the
    brightness; on a descriptor without a source-field they do not: the
    energy derivation takes the today branch and returns [0.0], the
    illuminance derivation returns [None]. *)
Lemma luxmeter_not_energy_path :
  async_luxmeter_from_device dimmer today_descriptor = Return None /\
  async_emeter_from_device (reading_brightness dimmer) today_descriptor =
    Return (Some (PyFloat 0%float)) /\
  async_luxmeter_from_device dimmer today_descriptor <>
  async_emeter_from_device (reading_brightness dimmer) today_descriptor.
Proof.
  split; [reflexivity|]. split; [reflexivity|]. discriminate.
Qed.

(** C3, amended.  On a descriptor with a source-field, the illuminance
    derivation on [dev] returns what the energy derivation returns on any
    device [dev'] whose metering reading holds, in the field of that name,
    the brightness reading of [dev]: there the two differ in the source of
    the reading only.  On a descriptor without a source-field the
    illuminance derivation returns [None]; it does not take the
    today/bulb/0.0 branch, on which the energy derivation of a device that
    is no bulb never returns [None]. *)
Theorem luxmeter_vs_energy_path
    (dev : SmartDevice) (d : TPLinkSensorEntityDescription) :
  (forall dev' attr,
     truthy (emeter_attr d) = Some attr ->
     getattr (emeter_realtime dev') attr = Return (current_brightness dev) ->
     async_luxmeter_from_device dev d = async_emeter_from_device dev' d) /\
  (truthy (emeter_attr d) = None ->
     async_luxmeter_from_device dev d = Return None /\
     (is_bulb dev = false ->
        async_emeter_from_device dev d <> Return None /\
        async_luxmeter_from_device dev d <> async_emeter_from_device dev d)).
Proof.
  split.
  - intros dev' attr Hattr Hget.
    unfold async_luxmeter_from_device, async_emeter_from_device.
    rewrite Hattr, Hget. reflexivity.
  - intros Hattr.
    assert (Hlux : async_luxmeter_from_device dev d = Return None).
    { unfold async_luxmeter_from_device. rewrite Hattr. reflexivity. }
    split; [exact Hlux|]. intros Hbulb.
    assert (Hen : async_emeter_from_device dev d <> Return None).
    { unfold async_emeter_from_device. rewrite Hattr, Hbulb.
      destruct (emeter_today dev) as [today|]; [|discriminate].
      destruct (round today (precision d)); discriminate. }
    split; [exact Hen|]. rewrite Hlux. intros Heq. apply Hen. symmetry. exact Heq.
Qed.

(** On the lux descriptor the dimmer, with a brightness of 50.04, has the
    illuminance that the energy derivation computes once the metering
    reading holds the brightness: 50.0. *)
Lemma luxmeter_vs_energy_path_witness :
  async_luxmeter_from_device dimmer lux_descriptor =
    async_emeter_from_device (reading_brightness dimmer) lux_descriptor /\
  async_emeter_from_device (reading_brightness dimmer) lux_descriptor =
    Return (Some (PyFloat 50%float)) /\
  async_luxmeter_from_device plug today_descriptor <>
    async_emeter_from_device plug today_descriptor.
Proof.
  split; [|split].
  - exact (proj1 (luxmeter_vs_energy_path dimmer lux_descriptor)
             (reading_brightness dimmer) "power" eq_refl eq_refl).
  - vm_compute. reflexivity.
  - exact (proj2 (proj2 (proj2 (luxmeter_vs_energy_path plug today_descriptor)
                           eq_refl) eq_refl)).
Defined.

(** C4, as stated, fails.  A descriptor may name a field that the metering
    reading lacks altogether, and then the lookup raises instead of
    returning [None]; and a descriptor may have a precision at which
    [round] raises on the reading: no precision ([None]) on a reading of
    NaN, a precision of -308 places on a reading of 1.7e308. *)
Lemma unknown_source_field_raises :
  (emeter_attr frequency_descriptor = Some "frequency" /\
   async_emeter_from_device plug frequency_descriptor =
     Raise (AttributeError "frequency")) /\
  async_emeter_from_device (plug_reporting nan) unrounded_descriptor =
    Raise ValueError /\
  async_emeter_from_device (plug_reporting 1.7e308%float) coarse_descriptor =
    Raise OverflowError.
Proof.
  split; [split; reflexivity|]. split; vm_compute; reflexivity.
Qed.

(** C4, amended.  For a descriptor whose non-empty source-field is a field
    of the metering reading ([power], [total], [voltage], [current]) and
    whose precision is a number [n >= 0] of places, the lookup returns the
    reading [val] of that field, and the energy derivation returns [None]
    when [val] is [None] and otherwise [val] rounded to [n] places, the
    float [round_digits v n] that [round] returns. *)
Theorem emeter_source_field
    (dev : SmartDevice) (d : TPLinkSensorEntityDescription)
    (attr : string) (n : Z) :
  truthy (emeter_attr d) = Some attr ->
  In attr emeter_fields ->
  precision d = Some n -> 0 <= n ->
  exists val,
    getattr (emeter_realtime dev) attr = Return val /\
    (forall v, round v (precision d) = Return (PyFloat (round_digits v n))) /\
    async_emeter_from_device dev d =
      match val with
      | None => Return None
      | Some v => Return (Some (PyFloat (round_digits v n)))
      end.
Proof.
  intros Hattr Hin Hprec Hn.
  destruct (getattr_known (emeter_realtime dev) attr Hin) as [val Hget].
  exists val. split; [exact Hget|]. split.
  - intros v. rewrite Hprec. apply round_places. exact Hn.
  - rewrite (emeter_field_places dev d attr val n Hattr Hget Hprec Hn).
    destruct val; reflexivity.
Qed.

(** A current of 12.3456 A at precision 2 is reported as 12.35; a reading
    of [None] is reported as [None]. *)
Lemma emeter_source_field_witness :
  async_emeter_from_device plug current_descriptor =
    Return (Some (PyFloat 12.35%float)) /\
  async_emeter_from_device bulb current_descriptor = Return None.
Proof.
  assert (Hin : In "current" emeter_fields) by (simpl; tauto).
  split.
  - destruct (emeter_source_field plug current_descriptor "current" 2
                eq_refl Hin eq_refl ltac:(lia))
      as [val [Hget [_ Hvalue]]].
    injection Hget as <-. rewrite Hvalue. vm_compute. reflexivity.
  - destruct (emeter_source_field bulb current_descriptor "current" 2
                eq_refl Hin eq_refl ltac:(lia))
      as [val [Hget [_ Hvalue]]].
    injection Hget as <-. exact Hvalue.
Defined.

(** C8. On the lux descriptor the illuminance derivation returns [None]
    when the brightness reading is [None], and otherwise the brightness
    rounded to the precision of the descriptor, one place ([round] gives
    [round_digits _ 1]). *)
Theorem luxmeter_value `{Imports}
    (dev : SmartDevice) (d : TPLinkSensorEntityDescription) :
  In d LUX_SENSORS ->
  (forall v, round v (precision d) = Return (PyFloat (round_digits v 1))) /\
  async_luxmeter_from_device dev d =
  match current_brightness dev with
  | None => Return None
  | Some brightness => Return (Some (PyFloat (round_digits brightness 1)))
  end.
Proof.
  intros Hin. each_descriptor Hin. split.
  - intros v. apply round_places. lia.
  - rewrite (luxmeter_places dev _ "power" 1) by (reflexivity || lia).
    destruct (current_brightness dev); reflexivity.
Qed.

(** A brightness of 50.04 is reported as 50.0; no brightness, no value. *)
Lemma luxmeter_value_witness :
  async_luxmeter_from_device dimmer lux_descriptor =
    Return (Some (PyFloat 50%float)) /\
  async_luxmeter_from_device plug lux_descriptor = Return None.
Proof.
  assert (Hin : In lux_descriptor (@LUX_SENSORS upstream)) by (left; reflexivity).
  split.
  - rewrite (proj2 (@luxmeter_value upstream dimmer _ Hin)). vm_compute. reflexivity.
  - exact (proj2 (@luxmeter_value upstream plug _ Hin)).
Defined.

(** C9, as stated, fails: the energy derivation does not return on every
    descriptor; on one that names a field the reading lacks it raises. *)
Lemma emeter_not_total :
  ~ (forall dev d, exists v, async_emeter_from_device dev d = Return v).
Proof.
  intros Htotal. destruct (Htotal bulb frequency_descriptor) as [v Hv].
  discriminate Hv.
Qed.

(** C9, amended. On a descriptor that rounds to a non-negative number of
    places the illuminance derivation returns a number or [None] and does
    not raise; so does the energy derivation when, besides, the source-field
    is absent, empty or a field of the metering reading.  Every descriptor
    of the two catalogs is of this kind, so on the catalogs neither the
    lookup by name nor the rounding raises. *)
Theorem derivations_return `{Imports} :
  (forall dev d, rounds_to_places d = true ->
     exists v, async_luxmeter_from_device dev d = Return v) /\
  (forall dev d, rounds_to_places d = true -> names_emeter_field d = true ->
     exists v, async_emeter_from_device dev d = Return v) /\
  (forall dev d, In d (ENERGY_SENSORS ++ LUX_SENSORS)%list ->
     (exists v, async_luxmeter_from_device dev d = Return v) /\
     (exists v, async_emeter_from_device dev d = Return v)).
Proof.
  split; [|split].
  - intros dev d. apply luxmeter_returns.
  - intros dev d. apply emeter_returns.
  - intros dev d Hin.
    assert (Hreg : rounds_to_places d = true /\ names_emeter_field d = true).
    { apply in_app_or in Hin as [Hin|Hin].
      - apply energy_catalog_regular. exact Hin.
      - apply lux_catalog_regular. exact Hin. }
    destruct Hreg as [Hp Hf]. split.
    + apply luxmeter_returns. exact Hp.
    + apply emeter_returns; assumption.
Qed.

(** Both derivations return on the descriptor of the current, for a plug
    with a reading and for a bulb without one. *)
Lemma derivations_return_witness :
  (exists v, async_luxmeter_from_device plug current_descriptor = Return v) /\
  (exists v, async_emeter_from_device plug current_descriptor = Return v) /\
  (exists v, async_emeter_from_device bulb current_descriptor = Return v).
Proof.
  split; [|split].
  - exact (proj1 (@derivations_return upstream) plug current_descriptor eq_refl).
  - exact (proj1 (proj2 (@derivations_return upstream))
             plug current_descriptor eq_refl eq_refl).
  - apply (proj2 (proj2 (@derivations_return upstream)) bulb current_descriptor).
    right. right. right. right. left. reflexivity.
Defined.

(* ================================================================== *)
(** * Properties of the enumeration and of the entities *)
(* ================================================================== *)

(** An entity of the enumeration is a lux entity of the parent or an
    energy entity of a child (strip) or of the parent (otherwise). *)
Lemma in_setup_entities `{Imports}
    (c : TPLinkDataUpdateCoordinator) (e : SmartPlugSensor) :
  In e ((if is_dimmable (coordinator_device c)
         then lux_sensors c (coordinator_device c) else []) ++
        (if has_emeter (coordinator_device c)
         then if is_strip (coordinator_device c)
              then flat_map (energy_sensors c) (children (coordinator_device c))
              else energy_sensors c (coordinator_device c)
         else []))%list ->
  (is_dimmable (coordinator_device c) = true /\
   device e = coordinator_device c /\
   is_lux_entity e /\
   yields_value (async_luxmeter_from_device (device e) (entity_description e)) = true) \/
  (has_emeter (coordinator_device c) = true /\
   (if is_strip (coordinator_device c)
    then In (device e) (children (coordinator_device c))
    else device e = coordinator_device c) /\
   is_energy_entity e /\
   yields_value (async_emeter_from_device (device e) (entity_description e)) = true).
Proof.
  set (parent := coordinator_device c).
  intros Hin. apply in_app_or in Hin as [Hin|Hin].
  - left. destruct (is_dimmable parent); [|destruct Hin].
    apply in_sensors_of in Hin as [d [-> [Hd Hy]]]. auto.
  - right. destruct (has_emeter parent); [|destruct Hin].
    split; [reflexivity|].
    destruct (is_strip parent).
    + apply in_flat_map in Hin as [child [Hchild Hin]].
      apply in_sensors_of in Hin as [d [-> [Hd Hy]]]. auto.
    + apply in_sensors_of in Hin as [d [-> [Hd Hy]]]. auto.
Qed.

(** C5. The enumeration returns a list, and every entity of the list has a
    derived value at construction: the illuminance derivation on a lux
    entity, the energy derivation on an energy entity, applied to the
    device and the descriptor of the entity, returns a number and not
    [None]. *)
Theorem entities_have_values `{Imports} (c : TPLinkDataUpdateCoordinator) :
  exists entities,
    async_setup_entry c = Return entities /\
    forall e, In e entities ->
      (is_lux_entity e /\
       exists v,
         async_luxmeter_from_device (device e) (entity_description e) =
         Return (Some v)) \/
      (is_energy_entity e /\
       exists v,
         async_emeter_from_device (device e) (entity_description e) =
         Return (Some v)).
Proof.
  eexists. split; [apply setup_entities|].
  intros e Hin.
  destruct (in_setup_entities c e Hin) as [[_ [_ [Hd Hy]]]|[_ [_ [Hd Hy]]]];
    apply yields_value_spec in Hy; auto.
Qed.

(** C6. For a device with a meter, the energy entities of the enumeration
    are bound to children of the device, and none to the device itself,
    when it is a strip; they are all bound to the device itself when it is
    not. *)
Theorem energy_entities_binding `{Imports} (c : TPLinkDataUpdateCoordinator) :
  has_emeter (coordinator_device c) = true ->
  exists entities,
    async_setup_entry c = Return entities /\
    forall e, In e entities -> is_energy_entity e ->
      if is_strip (coordinator_device c)
      then In (device e) (children (coordinator_device c)) /\
           device e <> coordinator_device c
      else device e = coordinator_device c.
Proof.
  intros _. eexists. split; [apply setup_entities|].
  intros e Hin Hen.
  destruct (in_setup_entities c e Hin) as [[_ [_ [Hlux _]]]|[_ [Hbound _]]].
  - exfalso. exact (catalogs_disjoint _ Hlux Hen).
  - destruct (is_strip (coordinator_device c)); [|exact Hbound].
    split; [exact Hbound|]. apply child_not_parent. exact Hbound.
Qed.

(** On the strip the enumeration makes the power and the today entity of
    each outlet, four energy entities, and the property of C6 holds of
    them; on the plug the energy entities are bound to the plug. *)
Lemma energy_entities_binding_witness :
  (exists entities,
     @async_setup_entry upstream (coordinator_of strip) = Return entities /\
     List.length entities = 4%nat /\
     forall e, In e entities -> @is_energy_entity upstream e ->
       In (device e) (children strip) /\ device e <> strip) /\
  (exists entities,
     @async_setup_entry upstream (coordinator_of plug) = Return entities /\
     List.length entities = 5%nat /\
     forall e, In e entities -> @is_energy_entity upstream e -> device e = plug).
Proof.
  split.
  - destruct (@energy_entities_binding upstream (coordinator_of strip) eq_refl)
      as [entities [Hrun Hall]].
    exists entities. split; [exact Hrun|]. split; [|exact Hall].
    vm_compute in Hrun. injection Hrun as <-. reflexivity.
  - destruct (@energy_entities_binding upstream (coordinator_of plug) eq_refl)
      as [entities [Hrun Hall]].
    exists entities. split; [exact Hrun|]. split; [|exact Hall].
    vm_compute in Hrun. injection Hrun as <-. reflexivity.
Defined.

(** C7. The enumeration makes no lux entity for a device that is not
    dimmable, and no energy entity for a device without a meter. *)
Theorem capability_gates `{Imports} (c : TPLinkDataUpdateCoordinator) :
  exists entities,
    async_setup_entry c = Return entities /\
    (is_dimmable (coordinator_device c) = false ->
       forall e, In e entities -> ~ is_lux_entity e) /\
    (has_emeter (coordinator_device c) = false ->
       forall e, In e entities -> ~ is_energy_entity e).
Proof.
  eexists. split; [apply setup_entities|].
  split; intros Hflag e Hin Hkind;
    destruct (in_setup_entities c e Hin) as [[Hdim [_ [Hlux _]]]|[Hem [_ [Hen _]]]];
    try congruence.
  - exact (catalogs_disjoint _ Hkind Hen).
  - exact (catalogs_disjoint _ Hlux Hkind).
Qed.

(** The plug is not dimmable and gets its five energy entities, none of
    them a lux entity; the dimmer has no meter and gets its lux entity
    alone. *)
Lemma capability_gates_witness :
  (exists entities,
     @async_setup_entry upstream (coordinator_of plug) = Return entities /\
     List.length entities = 5%nat /\
     forall e, In e entities -> ~ @is_lux_entity upstream e) /\
  (exists entities,
     @async_setup_entry upstream (coordinator_of dimmer) = Return entities /\
     List.length entities = 1%nat /\
     forall e, In e entities -> ~ @is_energy_entity upstream e).
Proof.
  split.
  - destruct (@capability_gates upstream (coordinator_of plug))
      as [entities [Hrun [Hlux _]]].
    exists entities. split; [exact Hrun|]. split; [|exact (Hlux eq_refl)].
    vm_compute in Hrun. injection Hrun as <-. reflexivity.
  - destruct (@capability_gates upstream (coordinator_of dimmer))
      as [entities [Hrun [_ Hen]]].
    exists entities. split; [exact Hrun|]. split; [|exact (Hen eq_refl)].
    vm_compute in Hrun. injection Hrun as <-. reflexivity.
Defined.

(** C2 fails on a device that is dimmable and has a meter, here a bulb:
    the enumeration makes a lux entity and a power entity for the same
    device, and the two have the same unique id, since [LUX_SENSORS] reuses
    the key [ATTR_CURRENT_POWER_W] of the first energy descriptor. *)
Theorem lux_and_power_unique_id_collide `{Imports} :
  exists lux power rest,
    async_setup_entry (coordinator_of bulb) =
      Return (lux :: power :: rest) /\
    is_lux_entity lux /\
    is_energy_entity power /\
    device lux = bulb /\
    device power = bulb /\
    _attr_unique_id lux =
      (legacy_device_id bulb ++ "_" ++ ATTR_CURRENT_POWER_W)%string /\
    _attr_unique_id power = _attr_unique_id lux /\
    ~ NoDup (map _attr_unique_id (lux :: power :: rest)).
Proof.
  do 3 eexists. split.
  - rewrite setup_entities. lazy. reflexivity.
  - split; [left; reflexivity|]. split; [left; reflexivity|].
    repeat (split; [reflexivity|]).
    intros Hnodup. inversion Hnodup as [|x l Hnotin _]. subst.
    apply Hnotin. left. reflexivity.
Qed.

(** C10. The value of an entity made from the lux descriptor is computed by
    the energy derivation: it is the [power] reading of the metering
    reading rounded to one place ([None] when there is no such reading),
    whatever the brightness reading is.  The dimmer without a meter shows
    the difference: its lux entity is created, on a brightness of 50.04,
    and its value is [None], not 50.0. *)
Theorem lux_entity_native_value `{Imports}
    (dev : SmartDevice) (c : TPLinkDataUpdateCoordinator)
    (d : TPLinkSensorEntityDescription) :
  In d LUX_SENSORS ->
  emeter_attr d = Some "power" /\
  native_value (SmartPlugSensor_init dev c d) =
    async_emeter_from_device dev d /\
  native_value (SmartPlugSensor_init dev c d) =
    match power (emeter_realtime dev) with
    | None => Return None
    | Some watts => Return (Some (PyFloat (round_digits watts 1)))
    end /\
  (async_setup_entry (coordinator_of dimmer) =
     Return [SmartPlugSensor_init dimmer (coordinator_of dimmer) d] /\
   async_luxmeter_from_device dimmer d = Return (Some (PyFloat 50%float)) /\
   native_value (SmartPlugSensor_init dimmer (coordinator_of dimmer) d) =
     Return None).
Proof.
  intros Hin. each_descriptor Hin.
  split; [reflexivity|]. split; [reflexivity|]. split.
  - unfold native_value. cbn [device entity_description SmartPlugSensor_init].
    rewrite (emeter_field_places dev _ "power" (power (emeter_realtime dev)) 1)
      by (reflexivity || lia).
    destruct (power (emeter_realtime dev)); reflexivity.
  - split; [rewrite setup_entities; lazy; reflexivity|].
    split; vm_compute; reflexivity.
Qed.

(** The lux entity of the metering dimmer reports its power, 3.21 W
    rounded to 3.2, and not its brightness of 50.04. *)
Lemma lux_entity_native_value_witness :
  @native_value
    (@SmartPlugSensor_init upstream metering_dimmer
       (coordinator_of metering_dimmer) lux_descriptor) =
  Return (Some (PyFloat 3.2%float)).
Proof.
  assert (Hin : In lux_descriptor (@LUX_SENSORS upstream)) by (left; reflexivity).
  rewrite (proj1 (proj2 (proj2
    (@lux_entity_native_value upstream metering_dimmer
       (coordinator_of metering_dimmer) lux_descriptor Hin)))).
  vm_compute. reflexivity.
Defined.

(* ================================================================== *)
(** * Further properties of the enumeration *)
(* ================================================================== *)

Section EnumerationShape.

Context `{Imports}.

(** An entity remembers the descriptor it was made from. *)
Lemma init_inj (dev dev' : SmartDevice) (c c' : TPLinkDataUpdateCoordinator)
    (d d' : TPLinkSensorEntityDescription) :
  SmartPlugSensor_init dev c d = SmartPlugSensor_init dev' c' d' ->
  dev = dev' /\ d = d'.
Proof.
  intros Heq. split.
  - exact (f_equal device Heq).
  - exact (f_equal entity_description Heq).
Qed.

Lemma in_lux_sensors (c : TPLinkDataUpdateCoordinator) (dev : SmartDevice)
    (e : SmartPlugSensor) :
  In e (lux_sensors c dev) <->
  exists d, e = SmartPlugSensor_init dev c d /\ In d LUX_SENSORS /\
            exists v, async_luxmeter_from_device dev d = Return (Some v).
Proof.
  unfold lux_sensors. rewrite in_sensors_of.
  split; intros [d [Heq [Hin Hy]]]; exists d; repeat split; auto;
    apply yields_value_spec; exact Hy.
Qed.

Lemma in_energy_sensors (c : TPLinkDataUpdateCoordinator) (dev : SmartDevice)
    (e : SmartPlugSensor) :
  In e (energy_sensors c dev) <->
  exists d, e = SmartPlugSensor_init dev c d /\ In d ENERGY_SENSORS /\
            exists v, async_emeter_from_device dev d = Return (Some v).
Proof.
  unfold energy_sensors. rewrite in_sensors_of.
  split; intros [d [Heq [Hin Hy]]]; exists d; repeat split; auto;
    apply yields_value_spec; exact Hy.
Qed.

(** The energy part of the enumeration, by membership. *)
Lemma in_energy_part (c : TPLinkDataUpdateCoordinator) (e : SmartPlugSensor) :
  In e (if is_strip (coordinator_device c)
        then flat_map (energy_sensors c) (children (coordinator_device c))
        else energy_sensors c (coordinator_device c)) <->
  exists dev, enumerated (coordinator_device c) dev /\ In e (energy_sensors c dev).
Proof.
  unfold enumerated. destruct (is_strip (coordinator_device c)).
  - apply in_flat_map.
  - split.
    + intros Hin. exists (coordinator_device c). auto.
    + intros [dev [-> Hin]]. exact Hin.
Qed.

(** X1. The enumeration never raises, and its list is exactly this one,
    entry for entry and in this order: for a dimmable parent
    the lux descriptors, in catalog order, that have a value on the parent,
    each made into an entity of the parent; then, for a parent with a
    meter, for each enumerated device in order (the children of a strip,
    else the parent alone) the energy descriptors, in catalog order, that
    have a value on that device, each made into an entity of that device. *)
Theorem setup_entries_exactly (c : TPLinkDataUpdateCoordinator) :
  async_setup_entry c =
  Return
    ((if is_dimmable (coordinator_device c)
      then map (fun d => SmartPlugSensor_init (coordinator_device c) c d)
             (filter
                (fun d =>
                   yields_value
                     (async_luxmeter_from_device (coordinator_device c) d))
                LUX_SENSORS)
      else []) ++
     (if has_emeter (coordinator_device c)
      then flat_map
             (fun dev =>
                map (fun d => SmartPlugSensor_init dev c d)
                  (filter
                     (fun d => yields_value (async_emeter_from_device dev d))
                     ENERGY_SENSORS))
             (if is_strip (coordinator_device c)
              then children (coordinator_device c)
              else [coordinator_device c])
      else []))%list.
Proof.
  rewrite setup_entities. f_equal. f_equal.
  destruct (has_emeter (coordinator_device c)); [|reflexivity].
  destruct (is_strip (coordinator_device c)); [reflexivity|].
  cbn [flat_map]. rewrite app_nil_r. reflexivity.
Qed.

(** X2. On a device with a meter, an enumerated device gets the
    today-energy entity exactly when it has a reading for today or is not a
    bulb: a plug always gets it, whatever it reports, and a bulb only with
    a reading. *)
Theorem today_entity_iff (c : TPLinkDataUpdateCoordinator)
    (dev : SmartDevice) (d : TPLinkSensorEntityDescription) :
  has_emeter (coordinator_device c) = true ->
  enumerated (coordinator_device c) dev ->
  In d ENERGY_SENSORS -> emeter_attr d = None ->
  exists entities,
    async_setup_entry c = Return entities /\
    (In (SmartPlugSensor_init dev c d) entities <->
     emeter_today dev <> None \/ is_bulb dev = false).
Proof.
  intros Hem Hdev Hd Hattr.
  eexists. split; [apply setup_entities|].
  rewrite in_app_iff, Hem, in_energy_part.
  assert (Hval : async_emeter_from_device dev d =
                 match emeter_today dev with
                 | Some today => Return (Some (PyFloat (round_digits today 3)))
                 | None => if is_bulb dev then Return None
                           else Return (Some (PyFloat 0%float))
                 end).
  { each_descriptor Hd; try discriminate Hattr.
    apply emeter_today_places; [reflexivity|reflexivity|lia]. }
  split.
  - intros [Hlux|[dev' [_ Hen]]].
    + destruct (is_dimmable (coordinator_device c)); [|destruct Hlux].
      apply in_lux_sensors in Hlux as [d' [Heq [Hd' _]]].
      apply init_inj in Heq as [_ <-].
      exfalso. exact (catalogs_disjoint _ Hd' Hd).
    + apply in_energy_sensors in Hen as [d' [Heq [_ [v Hv]]]].
      apply init_inj in Heq as [<- <-]. rewrite Hval in Hv.
      destruct (emeter_today dev); [left; discriminate|].
      right. destruct (is_bulb dev); [discriminate Hv|reflexivity].
  - intros Hcase. right. exists dev. split; [exact Hdev|].
    apply in_energy_sensors. exists d. repeat split; auto. rewrite Hval.
    destruct (emeter_today dev) as [today|]; [eexists; reflexivity|].
    destruct Hcase as [Hsome| ->]; [contradiction|]. eexists. reflexivity.
Qed.

End EnumerationShape.

(** The plug has no reading for today and is no bulb: it gets the entity.
    The bulb has no reading for today: it does not. *)
Lemma today_entity_iff_witness :
  (exists entities,
     @async_setup_entry upstream (coordinator_of plug) = Return entities /\
     In (@SmartPlugSensor_init upstream plug (coordinator_of plug) today_descriptor)
        entities) /\
  (exists entities,
     @async_setup_entry upstream (coordinator_of bulb) = Return entities /\
     ~ In (@SmartPlugSensor_init upstream bulb (coordinator_of bulb) today_descriptor)
          entities).
Proof.
  assert (Hin : In today_descriptor (@ENERGY_SENSORS upstream)).
  { right. right. left. reflexivity. }
  split.
  - destruct (@today_entity_iff upstream (coordinator_of plug) plug today_descriptor
                eq_refl eq_refl Hin eq_refl) as [entities [Hrun Hiff]].
    exists entities. split; [exact Hrun|]. apply Hiff. right. reflexivity.
  - destruct (@today_entity_iff upstream (coordinator_of bulb) bulb today_descriptor
                eq_refl eq_refl Hin eq_refl) as [entities [Hrun Hiff]].
    exists entities. split; [exact Hrun|]. intros Hentity.
    apply Hiff in Hentity as [Hsome|Hbulb]; [apply Hsome; reflexivity|discriminate].
Defined.

(** Appending to the same prefix is injective. *)
Lemma append_inv_head (p a b : string) :
  (p ++ a = p ++ b)%string -> a = b.
Proof.
  induction p as [|ch p IH]; cbn [append]; intros Heq.
  - exact Heq.
  - apply IH. congruence.
Qed.

(** A function without repetitions over a list is injective on the list. *)
Lemma NoDup_map_inj {A B : Type} (f : A -> B) (l : list A) (a b : A) :
  NoDup (map f l) -> In a l -> In b l -> f a = f b -> a = b.
Proof.
  induction l as [|x l IH]; cbn [map]; intros Hnd Ha Hb Heq; [destruct Ha|].
  apply NoDup_cons_iff in Hnd as [Hnot Hnd].
  destruct Ha as [->|Ha], Hb as [->|Hb].
  - reflexivity.
  - exfalso. apply Hnot. rewrite Heq. apply in_map. exact Hb.
  - exfalso. apply Hnot. rewrite <- Heq. apply in_map. exact Ha.
  - apply IH; assumption.
Qed.

Lemma flat_map_length_le {A B : Type} (f : A -> list B) (l : list A) (n : nat) :
  (forall x, List.length (f x) <= n)%nat ->
  (List.length (flat_map f l) <= n * List.length l)%nat.
Proof.
  intros Hf. induction l as [|x l IH]; cbn [flat_map List.length]; [lia|].
  rewrite length_app. specialize (Hf x). lia.
Qed.

Section EnumerationInvariants.

Context `{Imports}.

Lemma sensors_of_length_le init derive catalog (dev : SmartDevice) :
  (List.length (sensors_of init derive catalog dev) <= List.length catalog)%nat.
Proof.
  unfold sensors_of. rewrite length_map. apply filter_length_le.
Qed.

(** The display names of the six descriptors are pairwise different. *)
Lemma catalog_names_differ :
  NoDup (map name (LUX_SENSORS ++ ENERGY_SENSORS)%list).
Proof.
  cbn [LUX_SENSORS ENERGY_SENSORS app map name].
  repeat (apply NoDup_cons;
          [cbn [In]; intros Hin;
           repeat (destruct Hin as [Hin|Hin]; [discriminate Hin|]);
           exact Hin|]).
  apply NoDup_nil.
Qed.

(** Every entity of the enumeration is made by [SmartPlugSensor_init], with
    the coordinator of the entry, from a catalog descriptor and the parent
    or one of its children. *)
Lemma in_setup_made (c : TPLinkDataUpdateCoordinator) (e : SmartPlugSensor) :
  In e ((if is_dimmable (coordinator_device c)
         then lux_sensors c (coordinator_device c) else []) ++
        (if has_emeter (coordinator_device c)
         then if is_strip (coordinator_device c)
              then flat_map (energy_sensors c) (children (coordinator_device c))
              else energy_sensors c (coordinator_device c)
         else []))%list ->
  exists dev d,
    e = SmartPlugSensor_init dev c d /\
    In d (LUX_SENSORS ++ ENERGY_SENSORS)%list /\
    (dev = coordinator_device c \/ In dev (children (coordinator_device c))).
Proof.
  intros Hin. apply in_app_or in Hin as [Hin|Hin].
  - destruct (is_dimmable (coordinator_device c)); [|destruct Hin].
    apply in_lux_sensors in Hin as [d [Heq [Hd _]]].
    exists (coordinator_device c), d. split; [exact Heq|].
    split; [apply in_or_app; left; exact Hd|left; reflexivity].
  - destruct (has_emeter (coordinator_device c)); [|destruct Hin].
    apply in_energy_part in Hin as [dev [Hdev Hin]].
    apply in_energy_sensors in Hin as [d [Heq [Hd _]]].
    exists dev, d. split; [exact Heq|].
    split; [apply in_or_app; right; exact Hd|].
    unfold enumerated in Hdev.
    destruct (is_strip (coordinator_device c)); [right|left]; exact Hdev.
Qed.

(** X3. The list of the enumeration is a list of lux entities followed by
    a list of energy entities.  There is at most one lux entity, and none
    for a parent that is not dimmable; there are at most five energy
    entities for each enumerated device (five for a device that is no
    strip, five for each child of a strip), and none for a parent without
    a meter.  So a strip without children gets no energy entity, and a
    device that is neither dimmable nor metering gets no entity at all. *)
Theorem entity_count_bound (c : TPLinkDataUpdateCoordinator) :
  exists lux energy,
    async_setup_entry c = Return (lux ++ energy)%list /\
    (forall e, In e lux -> is_lux_entity e /\ ~ is_energy_entity e) /\
    (forall e, In e energy -> is_energy_entity e /\ ~ is_lux_entity e) /\
    (List.length lux <=
     (if is_dimmable (coordinator_device c) then 1 else 0))%nat /\
    (List.length energy <=
     (if has_emeter (coordinator_device c)
      then 5 * (if is_strip (coordinator_device c)
                then List.length (children (coordinator_device c))
                else 1)
      else 0))%nat /\
    (is_strip (coordinator_device c) = true ->
     children (coordinator_device c) = [] ->
     forall e, In e (lux ++ energy)%list -> ~ is_energy_entity e) /\
    (is_dimmable (coordinator_device c) = false ->
     has_emeter (coordinator_device c) = false ->
     (lux ++ energy)%list = []).
Proof.
  exists (if is_dimmable (coordinator_device c)
          then lux_sensors c (coordinator_device c) else []).
  exists (if has_emeter (coordinator_device c)
          then if is_strip (coordinator_device c)
               then flat_map (energy_sensors c) (children (coordinator_device c))
               else energy_sensors c (coordinator_device c)
          else []).
  split; [apply setup_entities|].
  assert (Hlux : forall e,
    In e (if is_dimmable (coordinator_device c)
          then lux_sensors c (coordinator_device c) else []) ->
    is_lux_entity e /\ ~ is_energy_entity e).
  { intros e Hin.
    destruct (is_dimmable (coordinator_device c)); [|destruct Hin].
    apply in_lux_sensors in Hin as [d [-> [Hd _]]].
    split; [exact Hd|]. exact (catalogs_disjoint _ Hd). }
  assert (Hen : forall e,
    In e (if has_emeter (coordinator_device c)
          then if is_strip (coordinator_device c)
               then flat_map (energy_sensors c) (children (coordinator_device c))
               else energy_sensors c (coordinator_device c)
          else []) ->
    is_energy_entity e /\ ~ is_lux_entity e).
  { intros e Hin.
    destruct (has_emeter (coordinator_device c)); [|destruct Hin].
    apply in_energy_part in Hin as [dev [_ Hin]].
    apply in_energy_sensors in Hin as [d [-> [Hd _]]].
    split; [exact Hd|]. intros Hlux'. exact (catalogs_disjoint _ Hlux' Hd). }
  split; [exact Hlux|]. split; [exact Hen|]. split; [|split; [|split]].
  - destruct (is_dimmable (coordinator_device c)); [|apply Nat.le_refl].
    apply (sensors_of_length_le _ _ LUX_SENSORS).
  - destruct (has_emeter (coordinator_device c)); [|apply Nat.le_refl].
    destruct (is_strip (coordinator_device c)).
    + apply flat_map_length_le. intros dev.
      apply (sensors_of_length_le _ _ ENERGY_SENSORS).
    + rewrite Nat.mul_1_r. apply (sensors_of_length_le _ _ ENERGY_SENSORS).
  - intros Hstrip Hnone e Hin. apply in_app_or in Hin as [Hin|Hin].
    + apply (Hlux e Hin).
    + exfalso. rewrite Hstrip, Hnone in Hin.
      destruct (has_emeter (coordinator_device c)); destruct Hin.
  - intros -> ->. reflexivity.
Qed.

(** X4. A lux entity is made exactly when the parent is dimmable and has a
    brightness reading; it is bound to the parent, never to a child, and
    there is no second one. *)
Theorem lux_entity_iff (c : TPLinkDataUpdateCoordinator) :
  exists entities,
    async_setup_entry c = Return entities /\
    ((exists e, In e entities /\ is_lux_entity e) <->
     is_dimmable (coordinator_device c) = true /\
     current_brightness (coordinator_device c) <> None) /\
    (forall e, In e entities -> is_lux_entity e ->
       device e = coordinator_device c) /\
    (forall e e', In e entities -> In e' entities ->
       is_lux_entity e -> is_lux_entity e' -> e = e').
Proof.
  eexists. split; [apply setup_entities|].
  assert (Hlux : forall e,
    In e ((if is_dimmable (coordinator_device c)
           then lux_sensors c (coordinator_device c) else []) ++
          (if has_emeter (coordinator_device c)
           then if is_strip (coordinator_device c)
                then flat_map (energy_sensors c) (children (coordinator_device c))
                else energy_sensors c (coordinator_device c)
           else []))%list ->
    is_lux_entity e ->
    is_dimmable (coordinator_device c) = true /\
    current_brightness (coordinator_device c) <> None /\
    exists d, In d LUX_SENSORS /\ e = SmartPlugSensor_init (coordinator_device c) c d).
  { intros e Hin Hkind.
    destruct (in_setup_entities c e Hin) as [[Hdim [Hdev [_ Hy]]]|[_ [_ [Hen _]]]].
    - split; [exact Hdim|].
      apply in_app_or in Hin as [Hin|Hin].
      + rewrite Hdim in Hin. apply in_lux_sensors in Hin as [d [Heq [Hd [v Hv]]]].
        split; [|exists d; auto].
        intros Hnone. each_descriptor Hd.
        rewrite (luxmeter_places _ _ "power" 1) in Hv by (reflexivity || lia).
        rewrite Hnone in Hv. discriminate Hv.
      + exfalso.
        destruct (has_emeter (coordinator_device c)); [|destruct Hin].
        apply in_energy_part in Hin as [dev [_ Hin]].
        apply in_energy_sensors in Hin as [d [Heq [Hd _]]].
        subst e. exact (catalogs_disjoint _ Hkind Hd).
    - exfalso. exact (catalogs_disjoint _ Hkind Hen). }
  split; [|split].
  - split.
    + intros [e [Hin Hkind]]. destruct (Hlux e Hin Hkind) as [Hdim [Hb _]]. auto.
    + intros [Hdim Hb]. rewrite Hdim.
      destruct (current_brightness (coordinator_device c)) as [b|] eqn:Hbright;
        [|contradiction].
      cbn [LUX_SENSORS lux_sensors sensors_of].
      eexists. split.
      * apply in_or_app. left. apply in_lux_sensors.
        eexists. split; [reflexivity|]. split; [left; reflexivity|].
        eexists. rewrite (luxmeter_places _ _ "power" 1) by (reflexivity || lia).
        rewrite Hbright. reflexivity.
      * left. reflexivity.
  - intros e Hin Hkind. destruct (Hlux e Hin Hkind) as [_ [_ [d [_ ->]]]].
    reflexivity.
  - intros e e' Hin Hin' Hkind Hkind'.
    destruct (Hlux e Hin Hkind) as [_ [_ [d [Hd ->]]]].
    destruct (Hlux e' Hin' Hkind') as [_ [_ [d' [Hd' ->]]]].
    each_descriptor Hd. each_descriptor Hd'. reflexivity.
Qed.

End EnumerationInvariants.

Section EntityIdentity.

Context `{Imports}.

(** X5. Two entities of the enumeration that are bound to the same device
    and have the same display name are the same entity: within a device the
    display names tell the entities apart (the unique ids do not, see C2). *)
Theorem names_identify_entities (c : TPLinkDataUpdateCoordinator) :
  exists entities,
    async_setup_entry c = Return entities /\
    forall e e', In e entities -> In e' entities ->
      device e = device e' ->
      SmartPlugSensor_name e = SmartPlugSensor_name e' ->
      e = e'.
Proof.
  eexists. split; [apply setup_entities|].
  intros e e' Hin Hin' Hdev Hname.
  destruct (in_setup_made c e Hin) as [dev [d [-> [Hd _]]]].
  destruct (in_setup_made c e' Hin') as [dev' [d' [-> [Hd' _]]]].
  cbn [device SmartPlugSensor_init] in Hdev. subst dev'.
  unfold SmartPlugSensor_name in Hname.
  cbn [device entity_description SmartPlugSensor_init] in Hname.
  apply append_inv_head in Hname. apply (append_inv_head " ") in Hname.
  rewrite (NoDup_map_inj name _ d d' catalog_names_differ Hd Hd' Hname).
  reflexivity.
Qed.

(** X6. When the five keys of the energy descriptors are pairwise
    different, two energy entities of the enumeration that are bound to the
    same device and have the same unique id are the same entity. *)
Theorem energy_unique_ids (c : TPLinkDataUpdateCoordinator) :
  NoDup energy_keys ->
  exists entities,
    async_setup_entry c = Return entities /\
    forall e e', In e entities -> In e' entities ->
      is_energy_entity e -> is_energy_entity e' ->
      device e = device e' ->
      _attr_unique_id e = _attr_unique_id e' ->
      e = e'.
Proof.
  intros Hkeys. eexists. split; [apply setup_entities|].
  intros e e' Hin Hin' Hen Hen' Hdev Hid.
  destruct (in_setup_made c e Hin) as [dev [d [-> _]]].
  destruct (in_setup_made c e' Hin') as [dev' [d' [-> _]]].
  unfold is_energy_entity in Hen, Hen'.
  cbn [device entity_description _attr_unique_id SmartPlugSensor_init] in *.
  subst dev'.
  apply append_inv_head in Hid. apply (append_inv_head "_") in Hid.
  rewrite (NoDup_map_inj key _ d d' Hkeys Hen Hen' Hid).
  reflexivity.
Qed.

(** X7. Every entity of the enumeration is attached to the coordinator of
    the entry, is bound to the top-level device or to one of its children
    (never to a deeper descendant), and has the unique id
    [legacy_device_id(device) + "_" + key]. *)
Theorem entities_well_formed (c : TPLinkDataUpdateCoordinator) :
  exists entities,
    async_setup_entry c = Return entities /\
    forall e, In e entities ->
      coordinator e = c /\
      (device e = coordinator_device c \/
       In (device e) (children (coordinator_device c))) /\
      _attr_unique_id e =
        (legacy_device_id (device e) ++ "_" ++ key (entity_description e))%string.
Proof.
  eexists. split; [apply setup_entities|].
  intros e Hin.
  destruct (in_setup_made c e Hin) as [dev [d [-> [_ Hdev]]]].
  split; [reflexivity|]. split; [exact Hdev|reflexivity].
Qed.

(** X8. Read on the snapshot of the enumeration, the value of an entity of
    the list never raises, and the value of an energy entity is a number,
    not [None].  (The value of a lux entity can be [None], see C10.) *)
Theorem native_value_after_setup (c : TPLinkDataUpdateCoordinator) :
  exists entities,
    async_setup_entry c = Return entities /\
    forall e, In e entities ->
      (exists v, native_value e = Return v) /\
      (is_energy_entity e -> exists n, native_value e = Return (Some n)).
Proof.
  eexists. split; [apply setup_entities|].
  intros e Hin. split.
  - destruct (in_setup_made c e Hin) as [dev [d [-> [Hd _]]]].
    unfold native_value. cbn [device entity_description SmartPlugSensor_init].
    assert (Hreg : rounds_to_places d = true /\ names_emeter_field d = true).
    { apply in_app_or in Hd as [Hd|Hd].
      - apply lux_catalog_regular. exact Hd.
      - apply energy_catalog_regular. exact Hd. }
    apply emeter_returns; apply Hreg.
  - intros Hkind.
    destruct (in_setup_entities c e Hin) as [[_ [_ [Hlux _]]]|[_ [_ [Hen Hy]]]].
    + exfalso. exact (catalogs_disjoint _ Hlux Hkind).
    + apply yields_value_spec in Hy as [v Hv]. unfold native_value.
      exists v. exact Hv.
Qed.

End EntityIdentity.

(** The keys have pairwise different values upstream, and the five energy
    entities of the plug have five different unique ids. *)
Lemma energy_unique_ids_witness :
  exists entities,
    @async_setup_entry upstream (coordinator_of plug) = Return entities /\
    List.length entities = 5%nat /\
    forall e e', In e entities -> In e' entities ->
      @is_energy_entity upstream e -> @is_energy_entity upstream e' ->
      device e = device e' ->
      _attr_unique_id e = _attr_unique_id e' ->
      e = e'.
Proof.
  assert (Hkeys : NoDup (@energy_keys upstream)).
  { cbn. repeat (apply NoDup_cons;
                 [cbn [In]; intros Hin;
                  repeat (destruct Hin as [Hin|Hin]; [discriminate Hin|]);
                  exact Hin|]).
    apply NoDup_nil. }
  destruct (@energy_unique_ids upstream (coordinator_of plug) Hkeys)
    as [entities [Hrun Hall]].
  exists entities. split; [exact Hrun|]. split; [|exact Hall].
  vm_compute in Hrun. injection Hrun as <-. reflexivity.
Defined.

(* ================================================================== *)
(** * Which exceptions the derivations raise *)
(* ================================================================== *)



(* ================================================================== *)
(** * The debug log of the enumeration *)
(* ================================================================== *)

(** A comprehension whose condition does not log does not log. *)
Lemma comprehension_quiet {A B : Type}
    (f : A -> B) (derive : A -> result (option number)) (l : list A) :
  comprehension_logged f
    (fun x => value <~ quiet (derive x) ;; quiet (Return (is_not_None value))) l =
  quiet (comprehension f (fun x => value <- derive x ;; Return (is_not_None value)) l).
Proof.
  induction l as [|x l IH]; [reflexivity|].
  cbn [comprehension_logged comprehension]. rewrite IH.
  destruct (derive x) as [v|e]; [|reflexivity].
  cbn [quiet bind_logged bind app].
  destruct (comprehension f _ l); reflexivity.
Qed.

(** A loop whose body does not log does not log. *)
Lemma for_each_quiet {A S : Type}
    (body : A -> S -> logged S) (pure : A -> S -> result S) (l : list A) :
  (forall x s, body x s = quiet (pure x s)) ->
  forall s, for_each_logged l body s = quiet (for_each l pure s).
Proof.
  intros Hbody. induction l as [|x l IH]; intros s; [reflexivity|].
  cbn [for_each_logged for_each]. rewrite Hbody.
  destruct (pure x s) as [s'|e]; [|reflexivity].
  cbn [quiet bind_logged bind]. rewrite IH. reflexivity.
Qed.

(** The loop over the supported modules writes one record for each. *)
Lemma modules_log (modules : list string) :
  for_each_logged modules (fun m _ => log (debug "Found module: %s" [m])) tt =
  (map (fun m => debug "Found module: %s" [m]) modules, Return tt).
Proof.
  induction modules as [|m modules IH]; [reflexivity|].
  cbn [for_each_logged map log bind_logged]. rewrite IH. reflexivity.
Qed.

Section EnumerationLog.

Context `{Imports}.

(** The two comprehensions and the loop over the children return, without
    raising, the entities of [lux_sensors] and [energy_sensors]. *)
Lemma lux_comprehension (c : TPLinkDataUpdateCoordinator) (dev : SmartDevice) :
  comprehension (fun description => SmartPlugSensor_init dev c description)
    (fun description =>
       value <- async_luxmeter_from_device dev description ;;
       Return (is_not_None value)) LUX_SENSORS =
  Return (lux_sensors c dev).
Proof.
  apply comprehension_filter.
  intros x Hx. apply luxmeter_returns. apply (lux_catalog_regular x Hx).
Qed.

Lemma energy_comprehension (c : TPLinkDataUpdateCoordinator) (dev : SmartDevice) :
  comprehension (fun description => SmartPlugSensor_init dev c description)
    (fun description =>
       value <- async_emeter_from_device dev description ;;
       Return (is_not_None value)) ENERGY_SENSORS =
  Return (energy_sensors c dev).
Proof.
  apply comprehension_filter.
  intros x Hx. apply emeter_returns; apply (energy_catalog_regular x Hx).
Qed.

Lemma energy_loop_logged (c : TPLinkDataUpdateCoordinator)
    (l : list SmartDevice) (acc : list SmartPlugSensor) :
  for_each_logged l
    (fun child entities =>
       sensors <~
         comprehension_logged
           (fun description => SmartPlugSensor_init child c description)
           (fun description =>
              value <~ quiet (async_emeter_from_device child description) ;;
              quiet (Return (is_not_None value))) ENERGY_SENSORS ;;
       quiet (Return (extend entities sensors))) acc =
  quiet (Return (acc ++ flat_map (energy_sensors c) l)%list).
Proof.
  rewrite (for_each_quiet _
             (fun child entities =>
                sensors <- Return (energy_sensors c child) ;;
                Return (extend entities sensors))).
  - f_equal.
    apply (for_each_extend (fun child => Return (energy_sensors c child))
             (energy_sensors c)).
    intros x _. reflexivity.
  - intros child s. rewrite comprehension_quiet, energy_comprehension.
    reflexivity.
Qed.

(** X11. The enumeration with its log returns the list of
    [async_setup_entry]; its log is one ["Found module: %s"] record for
    each supported module of the parent, in order, then for a dimmable
    parent ["Found a dimmer switch."] and the one record of the illuminance
    derivation.  The energy part logs nothing. *)
Theorem setup_log (c : TPLinkDataUpdateCoordinator) :
  async_setup_entry_logged c =
  ((map (fun m => debug "Found module: %s" [m])
        (supported_modules (coordinator_device c)) ++
    (if is_dimmable (coordinator_device c)
     then [debug "Found a dimmer switch." [];
           match current_brightness (coordinator_device c) with
           | None => debug "Current brightness returned None." []
           | Some _ => debug "Yay!" []
           end]
     else []))%list,
   async_setup_entry c).
Proof.
  rewrite setup_entities.
  unfold async_setup_entry_logged. cbv beta zeta.
  set (parent := coordinator_device c).
  rewrite modules_log. cbn [bind_logged].
  assert (Hlux :
    comprehension_logged
      (fun description => SmartPlugSensor_init parent c description)
      (fun description =>
         value <~ async_luxmeter_from_device_logged parent description ;;
         quiet (Return (is_not_None value))) LUX_SENSORS =
    ([match current_brightness parent with
      | None => debug "Current brightness returned None." []
      | Some _ => debug "Yay!" []
      end],
     Return (lux_sensors c parent))).
  { rewrite <- lux_comprehension.
    cbn [LUX_SENSORS comprehension_logged comprehension].
    unfold async_luxmeter_from_device_logged, async_luxmeter_from_device.
    cbn [emeter_attr precision truthy].
    destruct (current_brightness parent) as [v|]; [|reflexivity].
    rewrite round_places by lia. reflexivity. }
  assert (Hen : forall entities,
    (if has_emeter parent then
       if is_strip parent then
         for_each_logged (children parent)
           (fun child entities =>
              sensors <~
                comprehension_logged
                  (fun description => SmartPlugSensor_init child c description)
                  (fun description =>
                     value <~ quiet (async_emeter_from_device child description) ;;
                     quiet (Return (is_not_None value))) ENERGY_SENSORS ;;
              quiet (Return (extend entities sensors))) entities
       else
         sensors <~
           comprehension_logged
             (fun description => SmartPlugSensor_init parent c description)
             (fun description =>
                value <~ quiet (async_emeter_from_device parent description) ;;
                quiet (Return (is_not_None value))) ENERGY_SENSORS ;;
         quiet (Return (extend entities sensors))
     else quiet (Return entities)) =
    quiet (Return (entities ++
                   (if has_emeter parent
                    then if is_strip parent
                         then flat_map (energy_sensors c) (children parent)
                         else energy_sensors c parent
                    else []))%list)).
  { intros entities.
    destruct (has_emeter parent); [destruct (is_strip parent)|].
    - apply energy_loop_logged.
    - rewrite comprehension_quiet, energy_comprehension. reflexivity.
    - rewrite app_nil_r. reflexivity. }
  destruct (is_dimmable parent); rewrite ?Hlux;
    cbn [log bind_logged]; unfold quiet at 1; cbn [bind_logged extend app];
    rewrite Hen; unfold quiet; cbn [bind_logged app];
    rewrite ?app_nil_r; reflexivity.
Qed.

End EnumerationLog.

(* ================================================================== *)
(** * When unique ids collide *)
(* ================================================================== *)

(** X12. For every device that is dimmable, has a meter, is not a strip
    and has both a brightness and a power reading, the enumeration makes
    two different entities with the same unique id: the lux entity and the
    power entity.  The collision of C2 is not particular to one device. *)
Theorem lux_power_collision `{Imports} (c : TPLinkDataUpdateCoordinator) :
  is_dimmable (coordinator_device c) = true ->
  has_emeter (coordinator_device c) = true ->
  is_strip (coordinator_device c) = false ->
  current_brightness (coordinator_device c) <> None ->
  power (emeter_realtime (coordinator_device c)) <> None ->
  exists entities lux watts,
    async_setup_entry c = Return entities /\
    In lux entities /\ In watts entities /\
    is_lux_entity lux /\ is_energy_entity watts /\
    lux <> watts /\
    _attr_unique_id lux = _attr_unique_id watts.
Proof.
  intros Hdim Hem Hstrip Hbright Hpower.
  destruct (current_brightness (coordinator_device c)) as [b|] eqn:Hb;
    [|contradiction].
  destruct (power (emeter_realtime (coordinator_device c))) as [w|] eqn:Hw;
    [|contradiction].
  do 3 eexists. split; [apply setup_entities|].
  rewrite Hdim, Hem, Hstrip. split; [|split].
  - apply in_or_app. left. apply in_lux_sensors.
    eexists. split; [reflexivity|]. split; [left; reflexivity|].
    eexists. rewrite (luxmeter_places _ _ "power" 1) by (reflexivity || lia).
    rewrite Hb. reflexivity.
  - apply in_or_app. right. apply in_energy_sensors.
    eexists. split; [reflexivity|]. split; [left; reflexivity|].
    eexists.
    rewrite (emeter_field_places _ _ "power" (Some w) 1)
      by (reflexivity || lia || (cbn; rewrite Hw; reflexivity)).
    reflexivity.
  - split; [left; reflexivity|]. split; [left; reflexivity|].
    split; [|reflexivity].
    intros Heq. apply (f_equal entity_description) in Heq.
    apply (f_equal device_class) in Heq. discriminate Heq.
Qed.

(** The metering dimmer, with a brightness of 50.04 and a power of 3.21 W,
    gets two entities with the id ["dimmer_current_power_w"]. *)
Lemma lux_power_collision_witness :
  exists entities lux watts,
    @async_setup_entry upstream (coordinator_of metering_dimmer) = Return entities /\
    In lux entities /\ In watts entities /\
    @is_lux_entity upstream lux /\ @is_energy_entity upstream watts /\
    lux <> watts /\
    _attr_unique_id lux = _attr_unique_id watts.
Proof.
  apply (@lux_power_collision upstream (coordinator_of metering_dimmer));
    (reflexivity || discriminate).
Defined.
